(** * hello-world MCP server: a shallow embedding of [main.py]

    The server advertises one resource, one resource template and one tool,
    serves the widget HTML on [resources/read] and answers [tools/call] for
    the tool [say_hello].  The embedding follows [main.py] top to bottom:
    the module-level constants computed at import, the three listing
    handlers, [_handle_read_resource] and [_call_tool_request], and the
    table that routes a request to its handler. *)

From Stdlib Require Import ZArith Ascii String List.
From stdpp Require Import base option strings pretty gmap.

Open Scope string_scope.

(** ** Python values and built-ins used by the module *)

Module Py.

(** JSON-compatible Python values: [None], [bool], [int], [str], [list]
    and [dict].  A [dict] keeps its insertion order, which [str()] shows,
    so it is an association list.  Floating-point numbers are left out. *)
#[warnings="-register-all"] Inductive value : Type :=
| JNull
| JBool (b : bool)
| JInt (z : Z)
| JStr (s : string)
| JList (l : list value)
| JDict (d : list (string * value)).

(** A dict literal [{k1: v1, ...}] whose keys are distinct strings. *)
Definition dict : Type := list (string * value).

(** Exceptions the module can raise. *)
Inductive exn : Type :=
| ValueError (msg : string)
| KeyError (key : string).

(** The outcome of running a handler: a returned value or a raised
    exception. *)
Inductive result (A : Type) : Type :=
| Ok (a : A)
| Raise (e : exn).
Arguments Ok {A} a.
Arguments Raise {A} e.

#[global] Instance result_ret : MRet result := fun A a => Ok a.

#[global] Instance result_bind : MBind result := fun A B k r =>
  match r with
  | Ok a => k a
  | Raise e => Raise e
  end.

#[global] Instance result_fmap : FMap result := fun A B f r =>
  match r with
  | Ok a => Ok (f a)
  | Raise e => Raise e
  end.

(** [d[k]]: subscripting a dict raises [KeyError] on a missing key. *)
Fixpoint getitem (d : dict) (k : string) : result value :=
  match d with
  | [] => Raise (KeyError k)
  | (k', v) :: d' => if String.eqb k' k then Ok v else getitem d' k
  end.

(** The same lookup without the exception, for reading results. *)
Fixpoint lookup_key (d : dict) (k : string) : option value :=
  match d with
  | [] => None
  | (k', v) :: d' => if String.eqb k' k then Some v else lookup_key d' k
  end.

(** [str.isspace] on one character of the ASCII range: space, [\t] to
    [\r], and the separators [\x1c] to [\x1f]. *)
Definition isspace (c : ascii) : bool :=
  let n := nat_of_ascii c in
  Nat.eqb n 32 || (Nat.leb 9 n && Nat.leb n 13) || (Nat.leb 28 n && Nat.leb n 31).

Fixpoint lstrip (s : string) : string :=
  match s with
  | EmptyString => EmptyString
  | String c s' => if isspace c then lstrip s' else s
  end.

Fixpoint rstrip (s : string) : string :=
  match s with
  | EmptyString => EmptyString
  | String c s' =>
      match rstrip s' with
      | EmptyString => if isspace c then EmptyString else String c EmptyString
      | r => String c r
      end
  end.

(** [s.strip()] *)
Definition strip (s : string) : string := rstrip (lstrip s).

(** [sep.join(parts)] *)
Fixpoint join (sep : string) (parts : list string) : string :=
  match parts with
  | [] => ""
  | [p] => p
  | p :: ps => p +:+ sep +:+ join sep ps
  end.

Definition apostrophe : ascii := "039"%char.
Definition quote : ascii := "034"%char.
Definition backslash : ascii := "092"%char.

Fixpoint mem_char (c : ascii) (s : string) : bool :=
  match s with
  | EmptyString => false
  | String c' s' => Ascii.eqb c c' || mem_char c s'
  end.

Definition hex_digit (n : nat) : ascii :=
  ascii_of_nat (if Nat.ltb n 10 then 48 + n else 87 + n).

(** One character inside [repr] of a string delimited by [q]. *)
Definition repr_char (q c : ascii) : string :=
  let n := nat_of_ascii c in
  if Ascii.eqb c backslash then String backslash (String backslash "")
  else if Ascii.eqb c q then String backslash (String q "")
  else if Nat.eqb n 10 then String backslash "n"
  else if Nat.eqb n 13 then String backslash "r"
  else if Nat.eqb n 9 then String backslash "t"
  else if Nat.ltb n 32 || Nat.eqb n 127 then
    String backslash (String "x" (String (hex_digit (n / 16)) (String (hex_digit (n mod 16)) "")))
  else String c "".

Fixpoint repr_chars (q : ascii) (s : string) : string :=
  match s with
  | EmptyString => ""
  | String c s' => repr_char q c +:+ repr_chars q s'
  end.

(** [repr(s)] of a string: apostrophes around it, unless it holds an
    apostrophe and no double quote.  Bytes above 127 (printable text in
    UTF-8) are kept as they are. *)
Definition repr_str (s : string) : string :=
  let q := if mem_char apostrophe s && negb (mem_char quote s) then quote else apostrophe in
  String q (repr_chars q s +:+ String q "").

(** [repr(v)] *)
Fixpoint repr (v : value) : string :=
  match v with
  | JNull => "None"
  | JBool true => "True"
  | JBool false => "False"
  | JInt z => pretty z
  | JStr s => repr_str s
  | JList l => "[" +:+ join ", " (map repr l) +:+ "]"
  | JDict d =>
      "{" +:+ join ", " (map (fun kv => repr_str (fst kv) +:+ ": " +:+ repr (snd kv)) d) +:+ "}"
  end.

(** [str(v)], which is also what an f-string field [{v}] inserts: the
    text itself for a string, [repr(v)] otherwise. *)
Definition str (v : value) : string :=
  match v with
  | JStr s => s
  | _ => repr v
  end.

(** [d.get(k, default)] on the arguments of a request, a mapping from
    property names to values whose order is never observed. *)
Definition get (d : gmap string value) (k : string) (dflt : value) : value :=
  default dflt (d !! k).

(** [a or {}] where [a] is [None] or a dict: an empty dict is falsy, as
    [None] is, and the right operand is then the value. *)
Definition or_empty (a : option (gmap string value)) : gmap string value :=
  match a with
  | Some d => if Nat.eqb (size d) 0 then ∅ else d
  | None => ∅
  end.

(** [t in s] for strings. *)
Definition contains (s t : string) : Prop :=
  exists pre post : string, s = pre +:+ t +:+ post.

End Py.


(** ** The protocol types of [mcp.types] that the module builds and reads *)

Module types.
Import Py.

Module Resource.
Record t : Type := mk
  { uri : string; name : string; title : string;
    description : string; mimeType : string }.
End Resource.

Module ResourceTemplate.
Record t : Type := mk
  { uriTemplate : string; name : string; title : string;
    description : string; mimeType : string }.
End ResourceTemplate.

Module TextResourceContents.
Record t : Type := mk
  { uri : string; mimeType : string; text : string; _meta : dict }.
End TextResourceContents.

Module ReadResourceResult.
Record t : Type := mk { contents : list TextResourceContents.t }.
End ReadResourceResult.

Module Tool.
Record t : Type := mk
  { name : string; title : string; description : string;
    inputSchema : dict; _meta : dict }.
End Tool.

Module TextContent.
Record t : Type := mk { type : string; text : string }.
End TextContent.

Module CallToolResult.
Record t : Type := mk
  { content : list TextContent.t; structuredContent : dict; _meta : dict }.
End CallToolResult.

(** [request.params] of a [tools/call] request; [arguments] is optional
    on the wire and [None] when the client leaves it out. *)
Module CallToolRequestParams.
Record t : Type := mk
  { name : string; arguments : option (gmap string value) }.
End CallToolRequestParams.

Module CallToolRequest.
Record t : Type := mk { params : CallToolRequestParams.t }.
End CallToolRequest.

(** [request.params] of a [resources/read] request.  [uri] stands for
    the text [str(request.params.uri)], which is all the handler reads. *)
Module ReadResourceRequestParams.
Record t : Type := mk { uri : string }.
End ReadResourceRequestParams.

Module ReadResourceRequest.
Record t : Type := mk { params : ReadResourceRequestParams.t }.
End ReadResourceRequest.

End types.

(** ** [main.py] *)

Module main.
Import Py types.

Definition nl : string := String "010" "".
Definition dq : string := String quote "".

Definition WIDGET_URI : string := "ui://widget/widget.html".
Definition MIME_TYPE : string := "text/html+skybridge".

(** The process runs the module body once, at import, in the environment
    it is started in; the handlers then read the names bound there. *)
Section Process.
(** [os.environ] at import. *)
Variable environ : gmap string string.
(** [urlopen(url, timeout=10)] followed by [read().decode('utf-8')]:
    the decoded body, or [None] when any step raises. *)
Variable urlopen : string -> option string.

(** *** Module state computed at import *)

Definition WIDGET_REPO_URL : string :=
  default "" (environ !! "WIDGET_REPO_URL").

(** The [print] calls of this block only write to the console. *)
Definition WIDGET_BUNDLE : string :=
  if negb (String.eqb WIDGET_REPO_URL "") then
    match urlopen WIDGET_REPO_URL with
    | Some body => body
    | None => "console.error('Widget bundle not loaded');"
    end
  else "console.error('WIDGET_REPO_URL not configured');".

Definition WIDGET_HTML : string :=
  strip (nl +:+ "<div id=" +:+ dq +:+ "root" +:+ dq +:+ "></div>" +:+ nl
         +:+ "<script>" +:+ nl
         +:+ WIDGET_BUNDLE +:+ nl
         +:+ "</script>" +:+ nl).

(** *** Handlers *)

Definition _list_resources : list Resource.t :=
  [ {| Resource.uri := WIDGET_URI;
       Resource.name := "Hello World Widget";
       Resource.title := "Hello World Widget";
       Resource.description := "Interactive hello world widget UI";
       Resource.mimeType := MIME_TYPE |} ].

Definition _list_resource_templates : list ResourceTemplate.t :=
  [ {| ResourceTemplate.uriTemplate := WIDGET_URI;
       ResourceTemplate.name := "Hello World Widget";
       ResourceTemplate.title := "Hello World Widget";
       ResourceTemplate.description := "Interactive hello world widget UI template";
       ResourceTemplate.mimeType := MIME_TYPE |} ].

Definition _handle_read_resource
    (request : ReadResourceRequest.t) : result ReadResourceResult.t :=
  let uri := ReadResourceRequestParams.uri (ReadResourceRequest.params request) in
  if negb (String.eqb uri WIDGET_URI) then
    Raise (ValueError ("Unknown resource URI: " +:+ uri))
  else
    Ok {| ReadResourceResult.contents :=
            [ {| TextResourceContents.uri := WIDGET_URI;
                 TextResourceContents.mimeType := MIME_TYPE;
                 TextResourceContents.text := WIDGET_HTML;
                 TextResourceContents._meta :=
                   [ ("openai/widgetPrefersBorder", JBool true);
                     ("openai/widgetDomain", JStr "https://chatgpt.com");
                     ("openai/widgetCSP",
                       JDict [ ("connect_domains", JList [JStr "https://chatgpt.com"]);
                               ("resource_domains",
                                 JList [JStr "https://persistent.oaistatic.com"]) ]);
                     ("openai/widgetDescription", JStr "Interactive hello world display") ]
              |} ] |}.

Definition _list_tools : list Tool.t :=
  [ {| Tool.name := "say_hello";
       Tool.title := "Say Hello";
       Tool.description :=
         "Generates a personalized hello world greeting with optional custom message";
       Tool.inputSchema :=
         [ ("type", JStr "object");
           ("properties",
             JDict [ ("name",
                       JDict [ ("type", JStr "string");
                               ("description",
                                 JStr "Name of the person to greet (defaults to 'World')") ]);
                     ("message",
                       JDict [ ("type", JStr "string");
                               ("description", JStr "Optional custom message to display") ]) ]);
           ("required", JList []);
           ("additionalProperties", JBool false) ];
       Tool._meta :=
         [ ("openai/outputTemplate", JStr WIDGET_URI);
           ("openai/toolInvocation/invoking", JStr "Generating hello world greeting...");
           ("openai/toolInvocation/invoked", JStr "Greeting generated successfully");
           ("openai/widgetAccessible", JBool true);
           ("openai/resultCanProduceWidget", JBool true);
           ("annotations",
             JDict [ ("destructiveHint", JBool false);
                     ("openWorldHint", JBool false);
                     ("readOnlyHint", JBool true) ]) ] |} ].

Definition _call_tool_request (request : CallToolRequest.t) : result CallToolResult.t :=
  let tool_name := CallToolRequestParams.name (CallToolRequest.params request) in
  let arguments :=
    or_empty (CallToolRequestParams.arguments (CallToolRequest.params request)) in
  if String.eqb tool_name "say_hello" then
    let name := get arguments "name" (JStr "World") in
    let message := get arguments "message" (JStr "Welcome to the Hello World app!") in
    let data : dict :=
      [ ("greeting", JStr ("Hello, " +:+ str name +:+ "!"));
        ("message", message);
        ("timestamp", JStr "2024-01-01T00:00:00Z");
        ("metadata",
          JDict [ ("app", JStr "Hello World MCP"); ("version", JStr "1.0.0") ]) ] in
    greeting ← getitem data "greeting";
    message' ← getitem data "message";
    mret {| CallToolResult.content :=
              [ {| TextContent.type := "text";
                   TextContent.text := "Hello, " +:+ str name +:+ "! " +:+ str message |} ];
            CallToolResult.structuredContent :=
              [ ("greeting", greeting); ("message", message') ];
            CallToolResult._meta := [ ("fullData", JDict data) ] |}
  else
    Raise (ValueError ("Unknown tool: " +:+ tool_name)).

(** *** Request routing

    The [list_*] decorators and the two assignments to
    [request_handlers] bind one handler to each request type. *)

Inductive Request : Type :=
| ListResourcesRequest
| ListResourceTemplatesRequest
| ReadResourceRequest (request : ReadResourceRequest.t)
| ListToolsRequest
| CallToolRequest (request : CallToolRequest.t).

Inductive Response : Type :=
| ListResourcesResult (resources : list Resource.t)
| ListResourceTemplatesResult (resourceTemplates : list ResourceTemplate.t)
| ReadResourceResult (r : ReadResourceResult.t)
| ListToolsResult (tools : list Tool.t)
| CallToolResult (r : CallToolResult.t).

Definition request_handlers (request : Request) : result Response :=
  match request with
  | ListResourcesRequest => Ok (ListResourcesResult _list_resources)
  | ListResourceTemplatesRequest =>
      Ok (ListResourceTemplatesResult _list_resource_templates)
  | ReadResourceRequest r => ReadResourceResult <$> _handle_read_resource r
  | ListToolsRequest => Ok (ListToolsResult _list_tools)
  | CallToolRequest r => CallToolResult <$> _call_tool_request r
  end.

(** A run of the server: the requests it receives, each with the
    reading of the wall clock when it arrives, and the outcomes in the
    same order.  No handler takes or reads the clock, and none writes a
    module-level name. *)
Definition serve (trace : list (Z * Request)) : list (result Response) :=
  map (fun arrival => request_handlers (snd arrival)) trace.

End Process.

End main.


(** ** Reading requests and results the way the host does *)

Module host.
Import Py types main.

(** The [tools/call] request for [invoke(toolName, arguments)]. *)
Definition invoke (toolName : string) (arguments : option (gmap string value))
    : CallToolRequest.t :=
  CallToolRequest.mk (CallToolRequestParams.mk toolName arguments).

(** The [resources/read] request for [readResource(uri)]. *)
Definition readResource (uri : string) : ReadResourceRequest.t :=
  ReadResourceRequest.mk (ReadResourceRequestParams.mk uri).

(** The text items of a result, which the model is shown. *)
Definition textSummary (r : CallToolResult.t) : list string :=
  map TextContent.text (CallToolResult.content r).

(** The widget-only data of a result: [_meta["fullData"]]. *)
Definition privateMetadata (r : CallToolResult.t) : option value :=
  lookup_key (CallToolResult._meta r) "fullData".

(** Field [k] of a value that is a dict. *)
Definition field (k : string) (v : option value) : option value :=
  match v with
  | Some (JDict d) => lookup_key d k
  | _ => None
  end.

(** The [timestamp] the widget receives with the outcome of a request, if
    the outcome is a tool result that carries one. *)
Definition timestamp_of (r : result Response) : option value :=
  match r with
  | Ok (CallToolResult res) => field "timestamp" (privateMetadata res)
  | _ => None
  end.

(** The discovery requests: the three listings. *)
Definition is_discovery (request : Request) : bool :=
  match request with
  | ListResourcesRequest | ListResourceTemplatesRequest | ListToolsRequest => true
  | _ => false
  end.

(** The property names the input schema of a tool declares. *)
Definition declared_properties (t : Tool.t) : list string :=
  match lookup_key (Tool.inputSchema t) "properties" with
  | Some (JDict props) => map fst props
  | _ => []
  end.

(** Whether the input schema of a tool forbids undeclared properties. *)
Definition forbids_additional (t : Tool.t) : bool :=
  match lookup_key (Tool.inputSchema t) "additionalProperties" with
  | Some (JBool false) => true
  | _ => false
  end.

(** The timestamps the widget receives over a run of the server, one
    entry per request. *)
Definition invocation_timestamps (environ : gmap string string)
    (urlopen : string -> option string) (trace : list (Z * Request))
    : list (option value) :=
  map timestamp_of (serve environ urlopen trace).

(** The shell of the widget page up to the script body. *)
Definition html_head : string :=
  "<div id=" +:+ dq +:+ "root" +:+ dq +:+ "></div>" +:+ nl +:+ "<script>" +:+ nl.

(** The result [say_hello] gives when both defaults apply. *)
Definition default_result : CallToolResult.t :=
  {| CallToolResult.content :=
       [ {| TextContent.type := "text";
            TextContent.text := "Hello, World! Welcome to the Hello World app!" |} ];
     CallToolResult.structuredContent :=
       [ ("greeting", JStr "Hello, World!");
         ("message", JStr "Welcome to the Hello World app!") ];
     CallToolResult._meta :=
       [ ("fullData",
           JDict [ ("greeting", JStr "Hello, World!");
                   ("message", JStr "Welcome to the Hello World app!");
                   ("timestamp", JStr "2024-01-01T00:00:00Z");
                   ("metadata",
                     JDict [ ("app", JStr "Hello World MCP");
                             ("version", JStr "1.0.0") ]) ]) ] |}.

End host.

(** ** Properties *)

Import Py types main host.

(** *** Strings *)

Lemma append_cons (x : ascii) (a b : string) :
  String x a +:+ b = String x (a +:+ b).
Proof. reflexivity. Qed.

Lemma append_assoc (a b c : string) : (a +:+ b) +:+ c = a +:+ b +:+ c.
Proof.
  induction a as [|x a IH]; [reflexivity |].
  rewrite !append_cons. now rewrite IH.
Qed.

Lemma append_nil_r (a : string) : a +:+ "" = a.
Proof.
  induction a as [|x a IH]; [reflexivity |].
  rewrite append_cons. now rewrite IH.
Qed.

Lemma contains_intro (pre t post : string) : contains (pre +:+ t +:+ post) t.
Proof. exists pre, post. reflexivity. Qed.

Lemma contains_suffix (pre t : string) : contains (pre +:+ t) t.
Proof. exists pre, "". now rewrite append_nil_r. Qed.

(** [rstrip] leaves a prefix alone when the rest does not strip to
    nothing. *)
Lemma rstrip_app (a b : string) :
  rstrip b <> "" -> rstrip (a +:+ b) = a +:+ rstrip b.
Proof.
  intros Hb. induction a as [|x a IH]; [reflexivity |].
  rewrite !append_cons. cbn [rstrip]. rewrite IH.
  destruct (a +:+ rstrip b) eqn:E; [| reflexivity].
  destruct a; [contradiction | discriminate].
Qed.

(** *** Arguments *)

Lemma or_empty_Some (d : gmap string value) : or_empty (Some d) = d.
Proof.
  unfold or_empty. destruct (Nat.eqb (size d) 0) eqn:E; [| reflexivity].
  apply Nat.eqb_eq in E. symmetry. now apply map_size_empty_inv.
Qed.

Lemma or_empty_None : or_empty None = ∅.
Proof. reflexivity. Qed.

(** What [say_hello] returns, in terms of the two values it read. *)
Lemma say_hello_result (arguments : option (gmap string value)) :
  let name := get (or_empty arguments) "name" (JStr "World") in
  let message := get (or_empty arguments) "message" (JStr "Welcome to the Hello World app!") in
  _call_tool_request (invoke "say_hello" arguments) =
  Ok {| CallToolResult.content :=
          [ {| TextContent.type := "text";
               TextContent.text := "Hello, " +:+ str name +:+ "! " +:+ str message |} ];
        CallToolResult.structuredContent :=
          [ ("greeting", JStr ("Hello, " +:+ str name +:+ "!")); ("message", message) ];
        CallToolResult._meta :=
          [ ("fullData",
              JDict [ ("greeting", JStr ("Hello, " +:+ str name +:+ "!"));
                      ("message", message);
                      ("timestamp", JStr "2024-01-01T00:00:00Z");
                      ("metadata",
                        JDict [ ("app", JStr "Hello World MCP");
                                ("version", JStr "1.0.0") ]) ]) ] |}.
Proof. reflexivity. Qed.

(** *** The tool [say_hello] *)

(** C1: for every arguments mapping whose ["name"] and ["message"] values,
    when present, are strings, [invoke("say_hello", arguments)] returns the
    text ["Hello, " ++ n ++ "! " ++ m] and the structured content
    [{greeting: "Hello, " ++ n ++ "!", message: m}], where [n] is the name
    given or ["World"] and [m] is the message given or the welcome text,
    each default applying on its own. *)
Theorem say_hello_defaults (arguments : gmap string value) (n m : option string) :
  arguments !! "name" = JStr <$> n ->
  arguments !! "message" = JStr <$> m ->
  let n' := default "World" n in
  let m' := default "Welcome to the Hello World app!" m in
  exists res : CallToolResult.t,
    _call_tool_request (invoke "say_hello" (Some arguments)) = Ok res
    /\ textSummary res = [ "Hello, " +:+ n' +:+ "! " +:+ m' ]
    /\ CallToolResult.structuredContent res =
         [ ("greeting", JStr ("Hello, " +:+ n' +:+ "!")); ("message", JStr m') ].
Proof.
  intros Hn Hm n' m'. eexists. split; [apply say_hello_result |].
  rewrite or_empty_Some. unfold textSummary, get. cbn [CallToolResult.content
    CallToolResult.structuredContent map TextContent.text].
  rewrite Hn, Hm. subst n' m'. destruct n, m; split; reflexivity.
Qed.

Lemma say_hello_defaults_witness :
  exists res : CallToolResult.t,
    _call_tool_request (invoke "say_hello" (Some {[ "name" := JStr "Ada" ]})) = Ok res
    /\ textSummary res = [ "Hello, Ada! Welcome to the Hello World app!" ]
    /\ CallToolResult.structuredContent res =
         [ ("greeting", JStr "Hello, Ada!");
           ("message", JStr "Welcome to the Hello World app!") ].
Proof.
  apply (say_hello_defaults {[ "name" := JStr "Ada" ]} (Some "Ada") None);
    vm_compute; reflexivity.
Defined.

(** C10: when the arguments of a [say_hello] request are absent ([None]),
    the call succeeds and gives what the empty mapping gives: both
    defaults apply and the text is
    ["Hello, World! Welcome to the Hello World app!"]. *)
Theorem say_hello_absent_arguments :
  _call_tool_request (invoke "say_hello" None) =
    _call_tool_request (invoke "say_hello" (Some ∅))
  /\ _call_tool_request (invoke "say_hello" None) = Ok default_result
  /\ textSummary default_result = [ "Hello, World! Welcome to the Hello World app!" ].
Proof. repeat split; reflexivity. Qed.

(** C7: a call of [say_hello] succeeds, and in its result the widget-only
    data holds every field of the structured content with the same value,
    and the text is made of the greeting and the message found there. *)
Theorem say_hello_views_agree (arguments : option (gmap string value)) :
  exists (res : CallToolResult.t) (fullData : dict) (greeting message : value),
    _call_tool_request (invoke "say_hello" arguments) = Ok res
    /\ privateMetadata res = Some (JDict fullData)
    /\ lookup_key fullData "greeting" = Some greeting
    /\ lookup_key fullData "message" = Some message
    /\ lookup_key (CallToolResult.structuredContent res) "greeting" = Some greeting
    /\ lookup_key (CallToolResult.structuredContent res) "message" = Some message
    /\ (forall (k : string) (v : value),
          lookup_key (CallToolResult.structuredContent res) k = Some v ->
          lookup_key fullData k = Some v)
    /\ textSummary res = [ str greeting +:+ " " +:+ str message ].
Proof.
  do 4 eexists. split; [apply say_hello_result |].
  repeat (split; [reflexivity |]). split.
  - intros k v. cbn [CallToolResult.structuredContent lookup_key].
    destruct (String.eqb "greeting" k) eqn:Eg.
    + apply String.eqb_eq in Eg. subst k. trivial.
    + destruct (String.eqb "message" k) eqn:Em; [| discriminate].
      apply String.eqb_eq in Em. subst k. trivial.
  - unfold textSummary. cbn [CallToolResult.content map TextContent.text str].
    f_equal. rewrite !append_assoc. reflexivity.
Qed.

(** C4: for a tool name other than ["say_hello"], whatever the arguments,
    the call raises the unknown-tool error, whose message ends with that
    name. *)
Theorem unknown_tool_named (toolName : string)
    (arguments : option (gmap string value)) :
  toolName <> "say_hello" ->
  exists msg : string,
    _call_tool_request (invoke toolName arguments) = Raise (ValueError msg)
    /\ msg = "Unknown tool: " +:+ toolName
    /\ contains msg toolName.
Proof.
  intros Hne. eexists. split; [| split; [reflexivity | apply contains_suffix]].
  unfold _call_tool_request, invoke. cbn [CallToolRequest.params CallToolRequestParams.name].
  apply String.eqb_neq in Hne. now rewrite Hne.
Qed.

Lemma unknown_tool_named_witness :
  exists msg : string,
    _call_tool_request (invoke "nonexistent" (Some ∅)) = Raise (ValueError msg)
    /\ msg = "Unknown tool: nonexistent"
    /\ contains msg "nonexistent".
Proof. apply (unknown_tool_named "nonexistent" (Some ∅)). discriminate. Defined.

(** C2: the input schema of [say_hello] declares only [name] and [message]
    and forbids other properties, yet the call with [{extra: 1}] is not
    rejected: the handler runs and returns the all-defaults result. *)
Theorem say_hello_extra_property_accepted :
  (forall t : Tool.t, In t _list_tools ->
     Tool.name t = "say_hello"
     /\ declared_properties t = [ "name"; "message" ]
     /\ forbids_additional t = true)
  /\ _call_tool_request (invoke "say_hello" (Some {[ "extra" := JInt 1 ]}))
     = Ok default_result.
Proof.
  split.
  - intros t [<- | []]. repeat split; reflexivity.
  - vm_compute. reflexivity.
Qed.

(** *** The widget resource *)

(** The page is the fixed shell around the script body: [strip] removes
    only the line breaks at the two ends of the template. *)
Lemma WIDGET_HTML_shell (environ : gmap string string)
    (urlopen : string -> option string) :
  WIDGET_HTML environ urlopen =
    html_head +:+ WIDGET_BUNDLE environ urlopen +:+ nl +:+ "</script>".
Proof.
  unfold WIDGET_HTML. generalize (WIDGET_BUNDLE environ urlopen). intros body.
  change (strip _) with (rstrip ((html_head +:+ body) +:+ nl +:+ "</script>" +:+ nl)).
  rewrite rstrip_app by (vm_compute; discriminate).
  rewrite append_assoc. reflexivity.
Qed.

(** C6: reading ["ui://widget/widget.html"] succeeds with one content item
    whose uri is the one requested, whose mimeType is that of the
    descriptor [listResources()] gives for that uri, namely
    ["text/html+skybridge"], and whose text contains the configured script
    body. *)
Theorem read_widget_resource (environ : gmap string string)
    (urlopen : string -> option string) :
  exists c : TextResourceContents.t,
    _handle_read_resource environ urlopen (readResource "ui://widget/widget.html")
      = Ok {| ReadResourceResult.contents := [c] |}
    /\ TextResourceContents.uri c = "ui://widget/widget.html"
    /\ (exists d : Resource.t,
          In d _list_resources /\ Resource.uri d = "ui://widget/widget.html")
    /\ (forall d : Resource.t,
          In d _list_resources -> Resource.uri d = "ui://widget/widget.html" ->
          TextResourceContents.mimeType c = Resource.mimeType d)
    /\ TextResourceContents.mimeType c = "text/html+skybridge"
    /\ contains (TextResourceContents.text c) (WIDGET_BUNDLE environ urlopen).
Proof.
  eexists. split; [reflexivity |]. cbn [TextResourceContents.uri
    TextResourceContents.mimeType TextResourceContents.text].
  split; [reflexivity |]. split.
  - eexists. split; [left; reflexivity | reflexivity].
  - split; [| split; [reflexivity |]].
    + intros d [<- | []] _. reflexivity.
    + rewrite WIDGET_HTML_shell. apply contains_intro.
Qed.

(** C5: for a uri other than ["ui://widget/widget.html"], the read raises
    the unknown-resource error, whose message ends with that uri, and
    returns no content. *)
Theorem unknown_resource_named (environ : gmap string string)
    (urlopen : string -> option string) (uri : string) :
  uri <> "ui://widget/widget.html" ->
  exists msg : string,
    _handle_read_resource environ urlopen (readResource uri) = Raise (ValueError msg)
    /\ msg = "Unknown resource URI: " +:+ uri
    /\ contains msg uri
    /\ (forall r : ReadResourceResult.t,
          _handle_read_resource environ urlopen (readResource uri) <> Ok r).
Proof.
  intros Hne. apply String.eqb_neq in Hne.
  assert (E : _handle_read_resource environ urlopen (readResource uri)
              = Raise (ValueError ("Unknown resource URI: " +:+ uri))).
  { unfold _handle_read_resource, readResource.
    cbn [ReadResourceRequest.params ReadResourceRequestParams.uri].
    unfold WIDGET_URI. now rewrite Hne. }
  eexists. split; [exact E |]. split; [reflexivity |].
  split; [apply contains_suffix |]. intros r. rewrite E. discriminate.
Qed.

Lemma unknown_resource_named_witness :
  exists msg : string,
    _handle_read_resource ∅ (fun _ => None) (readResource "ui://widget/missing.html")
      = Raise (ValueError msg)
    /\ msg = "Unknown resource URI: ui://widget/missing.html"
    /\ contains msg "ui://widget/missing.html"
    /\ (forall r : ReadResourceResult.t,
          _handle_read_resource ∅ (fun _ => None)
            (readResource "ui://widget/missing.html") <> Ok r).
Proof.
  apply (unknown_resource_named ∅ (fun _ => None) "ui://widget/missing.html").
  discriminate.
Defined.

(** *** Runs of the server *)

Lemma lookup_map {A B : Type} (f : A -> B) (l : list A) (i : nat) :
  map f l !! i = f <$> (l !! i).
Proof.
  revert i. induction l as [|a l IH]; intros [|i]; try reflexivity. apply IH.
Qed.

Lemma serve_lookup (environ : gmap string string)
    (urlopen : string -> option string) (trace : list (Z * Request))
    (i : nat) (t : Z) (request : Request) :
  trace !! i = Some (t, request) ->
  serve environ urlopen trace !! i = Some (request_handlers environ urlopen request).
Proof. intros H. unfold serve. rewrite lookup_map, H. reflexivity. Qed.

(** C8: in a run of the server, two listings of the same kind (resources,
    resource templates or tools) both succeed with the same sequence,
    whatever the times they are made at and whatever is requested in
    between. *)
Theorem discovery_idempotent (environ : gmap string string)
    (urlopen : string -> option string) (trace : list (Z * Request))
    (i j : nat) (t1 t2 : Z) (request : Request) :
  is_discovery request = true ->
  trace !! i = Some (t1, request) ->
  trace !! j = Some (t2, request) ->
  exists listing : Response,
    serve environ urlopen trace !! i = Some (Ok listing)
    /\ serve environ urlopen trace !! j = Some (Ok listing).
Proof.
  intros Hd Hi Hj.
  rewrite (serve_lookup _ _ _ _ _ _ Hi), (serve_lookup _ _ _ _ _ _ Hj).
  destruct request; try discriminate Hd; eexists; split; reflexivity.
Qed.

Lemma discovery_idempotent_witness :
  exists listing : Response,
    serve ∅ (fun _ => None)
      [ (0%Z, ListToolsRequest);
        (5%Z, CallToolRequest (invoke "say_hello" None));
        (9%Z, ListToolsRequest) ] !! 0 = Some (Ok listing)
    /\ serve ∅ (fun _ => None)
      [ (0%Z, ListToolsRequest);
        (5%Z, CallToolRequest (invoke "say_hello" None));
        (9%Z, ListToolsRequest) ] !! 2 = Some (Ok listing).
Proof.
  apply (discovery_idempotent ∅ (fun _ => None) _ 0 2 0%Z 9%Z ListToolsRequest);
    reflexivity.
Defined.

(** *** The timestamp *)

(** C3, as the code has it: whenever it is invoked and whatever the
    arguments, [say_hello] puts the fixed text ["2024-01-01T00:00:00Z"] in
    the [timestamp] field of the widget-only data. *)
Theorem timestamp_fixed (environ : gmap string string)
    (urlopen : string -> option string) (trace : list (Z * Request))
    (i : nat) (t : Z) (arguments : option (gmap string value)) :
  trace !! i = Some (t, CallToolRequest (invoke "say_hello" arguments)) ->
  invocation_timestamps environ urlopen trace !! i
    = Some (Some (JStr "2024-01-01T00:00:00Z")).
Proof.
  intros Hi. unfold invocation_timestamps.
  rewrite lookup_map, (serve_lookup _ _ _ _ _ _ Hi). reflexivity.
Qed.

Lemma timestamp_fixed_witness :
  invocation_timestamps ∅ (fun _ => None)
    [ (1700000000%Z, CallToolRequest (invoke "say_hello" (Some {[ "name" := JStr "Ada" ]}))) ]
    !! 0 = Some (Some (JStr "2024-01-01T00:00:00Z")).
Proof.
  apply (timestamp_fixed ∅ (fun _ => None) _ 0 1700000000%Z
           (Some {[ "name" := JStr "Ada" ]})).
  reflexivity.
Defined.

(** C3, as stated, fails: two invocations a day apart carry the same
    timestamp. *)
Lemma timestamp_same_a_day_apart :
  (0 <> 86400)%Z
  /\ invocation_timestamps ∅ (fun _ => None)
       [ (0%Z, CallToolRequest (invoke "say_hello" None));
         (86400%Z, CallToolRequest (invoke "say_hello" None)) ]
     = [ Some (JStr "2024-01-01T00:00:00Z"); Some (JStr "2024-01-01T00:00:00Z") ].
Proof. split; [discriminate | reflexivity]. Qed.

(** C9: a tool call gives the same complete outcome wherever it occurs:
    in any two runs, at any two times, the same tool name and arguments
    give the same result or the same error, and the timestamp in a
    [say_hello] result is the fixed text ["2024-01-01T00:00:00Z"]. *)
Theorem tool_call_deterministic
    (environ1 environ2 : gmap string string)
    (urlopen1 urlopen2 : string -> option string)
    (trace1 trace2 : list (Z * Request)) (i j : nat) (t1 t2 : Z)
    (toolName : string) (arguments : option (gmap string value)) :
  trace1 !! i = Some (t1, CallToolRequest (invoke toolName arguments)) ->
  trace2 !! j = Some (t2, CallToolRequest (invoke toolName arguments)) ->
  exists outcome : result Response,
    serve environ1 urlopen1 trace1 !! i = Some outcome
    /\ serve environ2 urlopen2 trace2 !! j = Some outcome
    /\ timestamp_of outcome =
         if String.eqb toolName "say_hello"
         then Some (JStr "2024-01-01T00:00:00Z") else None.
Proof.
  intros Hi Hj.
  rewrite (serve_lookup _ _ _ _ _ _ Hi), (serve_lookup _ _ _ _ _ _ Hj).
  eexists. split; [reflexivity |]. split; [reflexivity |].
  cbn [request_handlers]. unfold _call_tool_request, invoke.
  cbn [CallToolRequest.params CallToolRequestParams.name].
  destruct (String.eqb toolName "say_hello"); reflexivity.
Qed.

Lemma tool_call_deterministic_witness :
  exists outcome : result Response,
    serve ∅ (fun _ => None)
      [ (10%Z, CallToolRequest (invoke "say_hello" (Some {[ "name" := JStr "Ada" ]}))) ]
      !! 0 = Some outcome
    /\ serve {[ "WIDGET_REPO_URL" := "https://example.org/w.js" ]}
         (fun _ => Some "render();")
      [ (20%Z, ListToolsRequest);
        (30%Z, CallToolRequest (invoke "say_hello" (Some {[ "name" := JStr "Ada" ]}))) ]
      !! 1 = Some outcome
    /\ timestamp_of outcome = Some (JStr "2024-01-01T00:00:00Z").
Proof.
  apply (tool_call_deterministic ∅ {[ "WIDGET_REPO_URL" := "https://example.org/w.js" ]}
           (fun _ => None) (fun _ => Some "render();") _ _ 0 1 10%Z 30%Z
           "say_hello" (Some {[ "name" := JStr "Ada" ]}));
    reflexivity.
Defined.

(** ** Further properties of the module *)

(** *** Startup: where the script body comes from *)

Lemma WIDGET_REPO_URL_unset (environ : gmap string string) :
  environ !! "WIDGET_REPO_URL" = None \/ environ !! "WIDGET_REPO_URL" = Some "" ->
  WIDGET_REPO_URL environ = "".
Proof. unfold WIDGET_REPO_URL. intros [-> | ->]; reflexivity. Qed.

Lemma WIDGET_BUNDLE_set (environ : gmap string string)
    (urlopen : string -> option string) (url : string) :
  environ !! "WIDGET_REPO_URL" = Some url -> url <> "" ->
  WIDGET_BUNDLE environ urlopen =
    default "console.error('Widget bundle not loaded');" (urlopen url).
Proof.
  intros He Hne. unfold WIDGET_BUNDLE, WIDGET_REPO_URL. rewrite He.
  change (default "" (Some url)) with url.
  apply String.eqb_neq in Hne. rewrite Hne.
  destruct (urlopen url); reflexivity.
Qed.

(** X1: when [WIDGET_REPO_URL] is unset, or set to the empty text, nothing
    that [urlopen] could return matters: the script body is the
    not-configured diagnostic and the page is the shell around it. *)
Theorem bundle_not_configured (environ : gmap string string)
    (urlopen : string -> option string) :
  environ !! "WIDGET_REPO_URL" = None \/ environ !! "WIDGET_REPO_URL" = Some "" ->
  WIDGET_BUNDLE environ urlopen = "console.error('WIDGET_REPO_URL not configured');"
  /\ WIDGET_HTML environ urlopen =
       html_head +:+ "console.error('WIDGET_REPO_URL not configured');"
       +:+ nl +:+ "</script>".
Proof.
  intros H.
  assert (E : WIDGET_BUNDLE environ urlopen
              = "console.error('WIDGET_REPO_URL not configured');").
  { unfold WIDGET_BUNDLE. rewrite (WIDGET_REPO_URL_unset _ H). reflexivity. }
  split; [exact E |]. rewrite WIDGET_HTML_shell, E. reflexivity.
Qed.

Lemma bundle_not_configured_witness :
  WIDGET_BUNDLE {[ "WIDGET_REPO_URL" := "" ]} (fun _ => Some "render();")
    = "console.error('WIDGET_REPO_URL not configured');"
  /\ WIDGET_HTML {[ "WIDGET_REPO_URL" := "" ]} (fun _ => Some "render();") =
       html_head +:+ "console.error('WIDGET_REPO_URL not configured');"
       +:+ nl +:+ "</script>".
Proof.
  apply (bundle_not_configured {[ "WIDGET_REPO_URL" := "" ]} (fun _ => Some "render();")).
  right. reflexivity.
Defined.

(** X2: when [WIDGET_REPO_URL] is set and the download succeeds, reading
    the widget resource returns the shell around exactly the downloaded
    text, whatever it is (empty, or with spaces at its ends). *)
Theorem fetched_bundle_served (environ : gmap string string)
    (urlopen : string -> option string) (url body : string) :
  environ !! "WIDGET_REPO_URL" = Some url ->
  url <> "" ->
  urlopen url = Some body ->
  exists c : TextResourceContents.t,
    _handle_read_resource environ urlopen (readResource "ui://widget/widget.html")
      = Ok {| ReadResourceResult.contents := [c] |}
    /\ TextResourceContents.text c = html_head +:+ body +:+ nl +:+ "</script>".
Proof.
  intros He Hne Hu. eexists. split; [reflexivity |].
  cbn [TextResourceContents.text]. rewrite WIDGET_HTML_shell.
  rewrite (WIDGET_BUNDLE_set _ _ _ He Hne), Hu. reflexivity.
Qed.

Lemma fetched_bundle_served_witness :
  exists c : TextResourceContents.t,
    _handle_read_resource {[ "WIDGET_REPO_URL" := "https://example.org/w.js" ]}
      (fun _ => Some " render(); ") (readResource "ui://widget/widget.html")
      = Ok {| ReadResourceResult.contents := [c] |}
    /\ TextResourceContents.text c = html_head +:+ " render(); " +:+ nl +:+ "</script>".
Proof.
  apply (fetched_bundle_served {[ "WIDGET_REPO_URL" := "https://example.org/w.js" ]}
           (fun _ => Some " render(); ") "https://example.org/w.js" " render(); ");
    [reflexivity | discriminate | reflexivity].
Defined.

(** X3: when [WIDGET_REPO_URL] is set and the download raises, startup
    goes on: the script body is the not-loaded diagnostic, and the widget
    resource is still served, with that diagnostic in the shell. *)
Theorem failed_fetch_still_serves (environ : gmap string string)
    (urlopen : string -> option string) (url : string) :
  environ !! "WIDGET_REPO_URL" = Some url ->
  url <> "" ->
  urlopen url = None ->
  WIDGET_BUNDLE environ urlopen = "console.error('Widget bundle not loaded');"
  /\ exists c : TextResourceContents.t,
       _handle_read_resource environ urlopen (readResource "ui://widget/widget.html")
         = Ok {| ReadResourceResult.contents := [c] |}
       /\ TextResourceContents.text c =
            html_head +:+ "console.error('Widget bundle not loaded');"
            +:+ nl +:+ "</script>".
Proof.
  intros He Hne Hu.
  assert (E : WIDGET_BUNDLE environ urlopen = "console.error('Widget bundle not loaded');").
  { rewrite (WIDGET_BUNDLE_set _ _ _ He Hne), Hu. reflexivity. }
  split; [exact E |]. eexists. split; [reflexivity |].
  cbn [TextResourceContents.text]. rewrite WIDGET_HTML_shell, E. reflexivity.
Qed.

Lemma failed_fetch_still_serves_witness :
  WIDGET_BUNDLE {[ "WIDGET_REPO_URL" := "https://example.org/w.js" ]} (fun _ => None)
    = "console.error('Widget bundle not loaded');"
  /\ exists c : TextResourceContents.t,
       _handle_read_resource {[ "WIDGET_REPO_URL" := "https://example.org/w.js" ]}
         (fun _ => None) (readResource "ui://widget/widget.html")
         = Ok {| ReadResourceResult.contents := [c] |}
       /\ TextResourceContents.text c =
            html_head +:+ "console.error('Widget bundle not loaded');"
            +:+ nl +:+ "</script>".
Proof.
  apply (failed_fetch_still_serves {[ "WIDGET_REPO_URL" := "https://example.org/w.js" ]}
           (fun _ => None) "https://example.org/w.js");
    [reflexivity | discriminate | reflexivity].
Defined.

Lemma length_append (a b : string) :
  String.length (a +:+ b) = String.length a + String.length b.
Proof.
  induction a as [|x a IH]; [reflexivity |].
  rewrite append_cons. cbn [String.length]. now rewrite IH.
Qed.

(** X4: [strip()] takes exactly the two outer line breaks off the
    template: the page is 41 characters longer than the script body, it
    starts at [<div] and ends at [</script>] whatever the body holds, and
    stripping it again changes nothing. *)
Theorem widget_page_stripped_once (environ : gmap string string)
    (urlopen : string -> option string) :
  String.length (WIDGET_HTML environ urlopen)
    = String.length (WIDGET_BUNDLE environ urlopen) + 41
  /\ lstrip (WIDGET_HTML environ urlopen) = WIDGET_HTML environ urlopen
  /\ rstrip (WIDGET_HTML environ urlopen) = WIDGET_HTML environ urlopen
  /\ strip (WIDGET_HTML environ urlopen) = WIDGET_HTML environ urlopen.
Proof.
  rewrite WIDGET_HTML_shell. generalize (WIDGET_BUNDLE environ urlopen). intros body.
  assert (Hl : lstrip (html_head +:+ body +:+ nl +:+ "</script>")
               = html_head +:+ body +:+ nl +:+ "</script>") by reflexivity.
  assert (Hr : rstrip (html_head +:+ body +:+ nl +:+ "</script>")
               = html_head +:+ body +:+ nl +:+ "</script>").
  { rewrite <- append_assoc. rewrite rstrip_app by (vm_compute; discriminate).
    reflexivity. }
  split; [| split; [exact Hl | split; [exact Hr |]]].
  - rewrite !length_append. change (String.length html_head) with 31.
    change (String.length nl + String.length "</script>") with 10. lia.
  - unfold strip. rewrite Hl. exact Hr.
Qed.

(** *** What is advertised is what is served *)

(** X5: a read succeeds exactly for the uris [_list_resources]
    advertises. *)
Theorem read_succeeds_iff_listed (environ : gmap string string)
    (urlopen : string -> option string) (uri : string) :
  (exists r : ReadResourceResult.t,
     _handle_read_resource environ urlopen (readResource uri) = Ok r)
  <-> (exists d : Resource.t, In d _list_resources /\ Resource.uri d = uri).
Proof.
  split.
  - intros [r Hr]. destruct (String.eqb uri WIDGET_URI) eqn:E.
    + apply String.eqb_eq in E. eexists. split; [left; reflexivity |].
      symmetry. exact E.
    + unfold _handle_read_resource, readResource in Hr.
      cbn [ReadResourceRequest.params ReadResourceRequestParams.uri] in Hr.
      rewrite E in Hr. discriminate Hr.
  - intros [d [[<- | []] <-]]. eexists. reflexivity.
Qed.

(** X6: a tool call succeeds exactly for the tool names [_list_tools]
    advertises, whatever the arguments. *)
Theorem call_succeeds_iff_listed (toolName : string)
    (arguments : option (gmap string value)) :
  (exists res : CallToolResult.t,
     _call_tool_request (invoke toolName arguments) = Ok res)
  <-> (exists t : Tool.t, In t _list_tools /\ Tool.name t = toolName).
Proof.
  split.
  - intros [res Hres]. destruct (String.eqb toolName "say_hello") eqn:E.
    + apply String.eqb_eq in E. eexists. split; [left; reflexivity |].
      symmetry. exact E.
    + unfold _call_tool_request, invoke in Hres.
      cbn [CallToolRequest.params CallToolRequestParams.name] in Hres.
      rewrite E in Hres. discriminate Hres.
  - intros [t [[<- | []] <-]]. eexists. apply say_hello_result.
Qed.

(** X7: the output template every advertised tool names in its metadata
    is the uri of an advertised resource, and reading that uri succeeds
    with content of the descriptor's uri and mimeType. *)
Theorem output_template_resolves (environ : gmap string string)
    (urlopen : string -> option string) :
  Forall
    (fun t : Tool.t =>
       exists (uri : string) (d : Resource.t) (c : TextResourceContents.t),
         lookup_key (Tool._meta t) "openai/outputTemplate" = Some (JStr uri)
         /\ In d _list_resources
         /\ Resource.uri d = uri
         /\ _handle_read_resource environ urlopen (readResource uri)
              = Ok {| ReadResourceResult.contents := [c] |}
         /\ TextResourceContents.uri c = uri
         /\ TextResourceContents.mimeType c = Resource.mimeType d)
    _list_tools.
Proof.
  repeat constructor. do 3 eexists.
  split; [reflexivity |]. split; [left; reflexivity |].
  repeat split; reflexivity.
Qed.

(** *** What [say_hello] reads and what it ignores *)

Lemma get_or_empty_Some (arguments : gmap string value) (k : string) (dflt : value) :
  get (or_empty (Some arguments)) k dflt = default dflt (arguments !! k).
Proof. rewrite or_empty_Some. reflexivity. Qed.

(** The result of [say_hello] is a function of the two values it reads. *)
Lemma say_hello_congruence (a1 a2 : option (gmap string value)) :
  get (or_empty a1) "name" (JStr "World") = get (or_empty a2) "name" (JStr "World") ->
  get (or_empty a1) "message" (JStr "Welcome to the Hello World app!")
    = get (or_empty a2) "message" (JStr "Welcome to the Hello World app!") ->
  _call_tool_request (invoke "say_hello" a1) = _call_tool_request (invoke "say_hello" a2).
Proof. intros Hn Hm. rewrite !say_hello_result. cbv zeta. now rewrite Hn, Hm. Qed.

(** X8: a property the input schema of an advertised tool does not
    declare is ignored by the call: adding it to any arguments, with any
    value, leaves the outcome unchanged. *)
Theorem undeclared_property_ignored (t : Tool.t) (arguments : gmap string value)
    (k : string) (v : value) :
  In t _list_tools ->
  ~ In k (declared_properties t) ->
  _call_tool_request (invoke (Tool.name t) (Some (<[k := v]> arguments)))
  = _call_tool_request (invoke (Tool.name t) (Some arguments)).
Proof.
  intros [<- | []] Hk. cbn [Tool.name].
  assert (Hn : "name" <> k) by (intros <-; apply Hk; left; reflexivity).
  assert (Hm : "message" <> k) by (intros <-; apply Hk; right; left; reflexivity).
  apply say_hello_congruence; rewrite !get_or_empty_Some;
    rewrite lookup_insert_ne by congruence; reflexivity.
Qed.

Lemma undeclared_property_ignored_witness :
  _call_tool_request
    (invoke "say_hello" (Some (<[ "extra" := JInt 1 ]> {[ "name" := JStr "Ada" ]})))
  = _call_tool_request (invoke "say_hello" (Some {[ "name" := JStr "Ada" ]})).
Proof.
  refine (undeclared_property_ignored (Tool.mk "say_hello" _ _ _ _)
            {[ "name" := JStr "Ada" ]} "extra" (JInt 1) _ _).
  - left. reflexivity.
  - vm_compute. intros [H | [H | []]]; discriminate H.
Defined.

(** X9: two calls of [say_hello] whose arguments agree on ["name"] and on
    ["message"] (present with the same value, or absent in both) give the
    same outcome, whatever else the arguments hold. *)
Theorem say_hello_reads_two_keys (arguments1 arguments2 : gmap string value) :
  arguments1 !! "name" = arguments2 !! "name" ->
  arguments1 !! "message" = arguments2 !! "message" ->
  _call_tool_request (invoke "say_hello" (Some arguments1))
  = _call_tool_request (invoke "say_hello" (Some arguments2)).
Proof.
  intros Hn Hm. apply say_hello_congruence; rewrite !get_or_empty_Some;
    [rewrite Hn | rewrite Hm]; reflexivity.
Qed.

Lemma say_hello_reads_two_keys_witness :
  _call_tool_request
    (invoke "say_hello" (Some {[ "name" := JStr "Ada"; "lang" := JStr "en" ]}))
  = _call_tool_request
    (invoke "say_hello" (Some {[ "name" := JStr "Ada"; "debug" := JBool true ]})).
Proof.
  apply (say_hello_reads_two_keys {[ "name" := JStr "Ada"; "lang" := JStr "en" ]}
           {[ "name" := JStr "Ada"; "debug" := JBool true ]});
    vm_compute; reflexivity.
Defined.

(** X10: leaving a field out is the same as passing its default: a call
    without ["name"] gives what ["name": "World"] gives, and a call without
    ["message"] gives what the welcome text as ["message"] gives. *)
Theorem default_is_explicit_value (arguments : gmap string value) :
  _call_tool_request (invoke "say_hello" (Some (delete "name" arguments)))
  = _call_tool_request
      (invoke "say_hello" (Some (<[ "name" := JStr "World" ]> arguments)))
  /\ _call_tool_request (invoke "say_hello" (Some (delete "message" arguments)))
     = _call_tool_request
         (invoke "say_hello"
            (Some (<[ "message" := JStr "Welcome to the Hello World app!" ]> arguments))).
Proof.
  split; apply say_hello_congruence; rewrite !get_or_empty_Some.
  - now rewrite lookup_delete_eq, lookup_insert_eq.
  - now rewrite lookup_delete_ne, lookup_insert_ne by discriminate.
  - now rewrite lookup_delete_ne, lookup_insert_ne by discriminate.
  - now rewrite lookup_delete_eq, lookup_insert_eq.
Qed.

(** X11: a ["name"] of any type is accepted, and enters the result only
    through its [str()] text: the outcome is the one for that text passed
    as a string (so the number 5 and the text "5" greet alike). *)
Theorem name_enters_as_text (arguments : gmap string value) (v : value) :
  _call_tool_request (invoke "say_hello" (Some (<[ "name" := v ]> arguments)))
  = _call_tool_request
      (invoke "say_hello" (Some (<[ "name" := JStr (str v) ]> arguments))).
Proof.
  rewrite !say_hello_result, !or_empty_Some. unfold get.
  rewrite !lookup_insert_eq. rewrite !lookup_insert_ne by discriminate.
  reflexivity.
Qed.

(** X12: a ["name"] that is present but null is not replaced by the
    default: the greeting is "Hello, None!", not "Hello, World!". *)
Theorem null_name_not_defaulted (arguments : gmap string value) :
  arguments !! "name" = Some JNull ->
  exists res : CallToolResult.t,
    _call_tool_request (invoke "say_hello" (Some arguments)) = Ok res
    /\ lookup_key (CallToolResult.structuredContent res) "greeting"
         = Some (JStr "Hello, None!")
    /\ field "greeting" (privateMetadata res) = Some (JStr "Hello, None!").
Proof.
  intros Hn. eexists. split; [apply say_hello_result |].
  rewrite or_empty_Some. unfold get. rewrite Hn. split; reflexivity.
Qed.

Lemma null_name_not_defaulted_witness :
  exists res : CallToolResult.t,
    _call_tool_request (invoke "say_hello" (Some {[ "name" := JNull ]})) = Ok res
    /\ lookup_key (CallToolResult.structuredContent res) "greeting"
         = Some (JStr "Hello, None!")
    /\ field "greeting" (privateMetadata res) = Some (JStr "Hello, None!").
Proof. apply (null_name_not_defaulted {[ "name" := JNull ]}). reflexivity. Defined.

Lemma append_inj_r (a b c : string) : a +:+ c = b +:+ c -> a = b.
Proof.
  intros H.
  assert (Hlen : String.length a = String.length b).
  { apply (f_equal String.length) in H. rewrite !length_append in H. lia. }
  revert b H Hlen. induction a as [|x a IH]; intros [|y b] H Hlen;
    try discriminate Hlen; [reflexivity |].
  rewrite !append_cons in H. injection H as -> H.
  f_equal. apply IH; [exact H | now injection Hlen].
Qed.

(** X13: the greeting tells string names apart: if two successful calls
    with string names carry the same greeting, the names are the same. *)
Theorem greeting_determines_name (arguments1 arguments2 : gmap string value)
    (n1 n2 : string) (res1 res2 : CallToolResult.t) :
  arguments1 !! "name" = Some (JStr n1) ->
  arguments2 !! "name" = Some (JStr n2) ->
  _call_tool_request (invoke "say_hello" (Some arguments1)) = Ok res1 ->
  _call_tool_request (invoke "say_hello" (Some arguments2)) = Ok res2 ->
  lookup_key (CallToolResult.structuredContent res1) "greeting"
    = lookup_key (CallToolResult.structuredContent res2) "greeting" ->
  n1 = n2.
Proof.
  intros H1 H2 E1 E2 Hg.
  rewrite say_hello_result, or_empty_Some in E1, E2. unfold get in E1, E2.
  rewrite H1 in E1. rewrite H2 in E2.
  injection E1 as <-. injection E2 as <-.
  cbn in Hg. injection Hg as Hg.
  apply (append_inj_r _ _ "!"). exact Hg.
Qed.

Lemma greeting_determines_name_witness : "Ada" = "Ada".
Proof.
  refine (greeting_determines_name {[ "name" := JStr "Ada" ]}
            {[ "name" := JStr "Ada"; "message" := JStr "Hi!" ]} "Ada" "Ada" _ _
            _ _ _ _ _).
  - reflexivity.
  - reflexivity.
  - apply say_hello_result.
  - apply say_hello_result.
  - reflexivity.
Defined.

(** X14: whenever a tool call succeeds, whatever the request, the result
    has the same shape: one text item, a structured content with the keys
    greeting and message, and widget-only data with the keys greeting,
    message, timestamp and metadata, where the greeting is a string and
    the metadata names the app and its version. *)
Theorem result_shape (request : CallToolRequest.t) (res : CallToolResult.t) :
  _call_tool_request request = Ok res ->
  map TextContent.type (CallToolResult.content res) = [ "text" ]
  /\ map fst (CallToolResult.structuredContent res) = [ "greeting"; "message" ]
  /\ map fst (CallToolResult._meta res) = [ "fullData" ]
  /\ (exists g : string,
        lookup_key (CallToolResult.structuredContent res) "greeting" = Some (JStr g))
  /\ (exists fullData : dict,
        privateMetadata res = Some (JDict fullData)
        /\ map fst fullData = [ "greeting"; "message"; "timestamp"; "metadata" ]
        /\ lookup_key fullData "metadata"
             = Some (JDict [ ("app", JStr "Hello World MCP");
                             ("version", JStr "1.0.0") ])).
Proof.
  destruct request as [[toolName arguments]]. intros H.
  destruct (String.eqb toolName "say_hello") eqn:E.
  - apply String.eqb_eq in E. subst toolName.
    change (_call_tool_request (invoke "say_hello" arguments) = Ok res) in H.
    rewrite say_hello_result in H. injection H as <-.
    repeat (split; [reflexivity |]). split; eexists; repeat split; reflexivity.
  - unfold _call_tool_request in H.
    cbn [CallToolRequest.params CallToolRequestParams.name] in H.
    rewrite E in H. discriminate H.
Qed.

Lemma result_shape_witness :
  map TextContent.type (CallToolResult.content default_result) = [ "text" ]
  /\ map fst (CallToolResult.structuredContent default_result) = [ "greeting"; "message" ]
  /\ map fst (CallToolResult._meta default_result) = [ "fullData" ]
  /\ (exists g : string,
        lookup_key (CallToolResult.structuredContent default_result) "greeting"
          = Some (JStr g))
  /\ (exists fullData : dict,
        privateMetadata default_result = Some (JDict fullData)
        /\ map fst fullData = [ "greeting"; "message"; "timestamp"; "metadata" ]
        /\ lookup_key fullData "metadata"
             = Some (JDict [ ("app", JStr "Hello World MCP");
                             ("version", JStr "1.0.0") ])).
Proof. apply (result_shape (invoke "say_hello" None) default_result). reflexivity. Defined.

(** *** Failures *)

Lemma read_raise_inv (environ : gmap string string)
    (urlopen : string -> option string) (r : ReadResourceRequest.t) (e : exn) :
  _handle_read_resource environ urlopen r = Raise e ->
  ReadResourceRequestParams.uri (ReadResourceRequest.params r) <> WIDGET_URI
  /\ e = ValueError ("Unknown resource URI: "
                     +:+ ReadResourceRequestParams.uri (ReadResourceRequest.params r)).
Proof.
  unfold _handle_read_resource. intros H.
  destruct (String.eqb _ WIDGET_URI) eqn:E; [discriminate H |].
  apply String.eqb_neq in E. split; [exact E |]. now injection H as <-.
Qed.

Lemma call_raise_inv (r : CallToolRequest.t) (e : exn) :
  _call_tool_request r = Raise e ->
  CallToolRequestParams.name (CallToolRequest.params r) <> "say_hello"
  /\ e = ValueError ("Unknown tool: "
                     +:+ CallToolRequestParams.name (CallToolRequest.params r)).
Proof.
  unfold _call_tool_request. intros H.
  destruct (String.eqb _ "say_hello") eqn:E; [discriminate H |].
  apply String.eqb_neq in E. split; [exact E |]. now injection H as <-.
Qed.

(** X15: a request fails in two ways only, both with a [ValueError]: a
    read of a uri other than the widget's, and a call of a tool other than
    [say_hello].  The listings never fail, and no [KeyError] escapes. *)
Theorem only_two_failures (environ : gmap string string)
    (urlopen : string -> option string) (request : Request) (e : exn) :
  request_handlers environ urlopen request = Raise e ->
  (exists r : ReadResourceRequest.t,
     request = ReadResourceRequest r
     /\ ReadResourceRequestParams.uri (ReadResourceRequest.params r) <> WIDGET_URI
     /\ e = ValueError ("Unknown resource URI: "
                        +:+ ReadResourceRequestParams.uri (ReadResourceRequest.params r)))
  \/ (exists r : CallToolRequest.t,
        request = CallToolRequest r
        /\ CallToolRequestParams.name (CallToolRequest.params r) <> "say_hello"
        /\ e = ValueError ("Unknown tool: "
                           +:+ CallToolRequestParams.name (CallToolRequest.params r))).
Proof.
  intros H. destruct request as [| | r | | r]; try discriminate H.
  - left. exists r. split; [reflexivity |].
    apply (read_raise_inv environ urlopen). cbn [request_handlers] in H.
    destruct (_handle_read_resource environ urlopen r); [discriminate H |].
    now injection H as <-.
  - right. exists r. split; [reflexivity |].
    apply call_raise_inv. cbn [request_handlers] in H.
    destruct (_call_tool_request r); [discriminate H |].
    now injection H as <-.
Qed.

Lemma only_two_failures_witness :
  (exists r : ReadResourceRequest.t,
     CallToolRequest (invoke "nonexistent" None) = ReadResourceRequest r
     /\ ReadResourceRequestParams.uri (ReadResourceRequest.params r) <> WIDGET_URI
     /\ ValueError "Unknown tool: nonexistent"
        = ValueError ("Unknown resource URI: "
                      +:+ ReadResourceRequestParams.uri (ReadResourceRequest.params r)))
  \/ (exists r : CallToolRequest.t,
        CallToolRequest (invoke "nonexistent" None) = CallToolRequest r
        /\ CallToolRequestParams.name (CallToolRequest.params r) <> "say_hello"
        /\ ValueError "Unknown tool: nonexistent"
           = ValueError ("Unknown tool: "
                         +:+ CallToolRequestParams.name (CallToolRequest.params r))).
Proof.
  apply (only_two_failures ∅ (fun _ => None) (CallToolRequest (invoke "nonexistent" None))).
  reflexivity.
Defined.

(** X16: both failures are [ValueError]s, and their messages never
    coincide: no unknown-tool message is an unknown-resource message,
    whatever the tool name and the uri. *)
Theorem failure_messages_distinct (environ : gmap string string)
    (urlopen : string -> option string) (call : CallToolRequest.t)
    (read : ReadResourceRequest.t) (msg1 msg2 : string) :
  _call_tool_request call = Raise (ValueError msg1) ->
  _handle_read_resource environ urlopen read = Raise (ValueError msg2) ->
  msg1 <> msg2.
Proof.
  intros H1 H2.
  apply call_raise_inv in H1 as [_ E1].
  apply read_raise_inv in H2 as [_ E2].
  injection E1 as ->. injection E2 as ->. discriminate.
Qed.

Lemma failure_messages_distinct_witness :
  "Unknown tool: ui://widget/missing.html"
  <> "Unknown resource URI: ui://widget/missing.html".
Proof.
  apply (failure_messages_distinct ∅ (fun _ => None)
           (invoke "ui://widget/missing.html" None)
           (readResource "ui://widget/missing.html"));
    reflexivity.
Defined.
